(** * Snowflake declaration layer (main.py): a shallow embedding

The program is a flat list of factory functions.  Each one binds its
arguments, fills in defaults, builds the keyword arguments of one
provider class of [pulumi_snowflake] and calls its constructor, which
registers the declaration with the engine.  The embedding keeps that
shape: Python values and exceptions in [Py], the engine's deferred
values, registry and stack outputs in [Pulumi], the provider classes as
records in [Snowflake], and the functions of main.py in [Main]. *)

From Stdlib Require Import ZArith.
From stdpp Require Import base option strings list gmap.

Local Open Scope string_scope.
Local Open Scope Z_scope.

Set Warnings "-register-all".

(** ** Python values *)

Module Py.

(** The exceptions main.py raises by itself: a subscript [col["name"]]
    on a dict without that key, and the load of a global name that
    nothing has bound. *)
Inductive Exn : Type :=
| KeyError (key : string)
| NameError (name : string).

Inductive Outcome (A : Type) : Type :=
| Returned (a : A)
| Raised (e : Exn).
Arguments Returned {A} a.
Arguments Raised {A} e.

(** An argument of a call: left out by the caller, or passed. *)
Inductive Arg (T : Type) : Type :=
| Omitted
| Passed (v : T).
Arguments Omitted {T}.
Arguments Passed {T} v.

(** Binding a parameter declared [p: T = d]. *)
Definition bind_default {T : Type} (d : T) (a : Arg T) : T :=
  match a with
  | Omitted => d
  | Passed v => v
  end.

(** Truthiness of an [Optional[str]]: [None] and the empty string are
    falsy. *)
Definition truthy (o : option string) : bool :=
  match o with
  | None => false
  | Some s => negb (String.eqb s "")
  end.

(** [o or d] for [o : Optional[str]] and [d : str]. *)
Definition or_else (o : option string) (d : string) : string :=
  match o with
  | Some s => if truthy o then s else d
  | None => d
  end.

(** [d[k]] on a [Dict[str, str]]. *)
Definition getitem (d : gmap string string) (k : string) : Outcome string :=
  match d !! k with
  | Some v => Returned v
  | None => Raised (KeyError k)
  end.

(** [d.get(k, dflt)]. *)
Definition get (d : gmap string string) (k : string) (dflt : string) : string :=
  match d !! k with
  | Some v => v
  | None => dflt
  end.

(** [a == b] on [str]. *)
Definition str_eq (a b : string) : bool := String.eqb a b.

End Py.

Export Py(Outcome, Returned, Raised, Arg, Omitted, Passed).

(** ** The engine: deferred values, registry, stack outputs *)

Module Pulumi.

(** The provider classes main.py instantiates. *)
Inductive Kind : Type :=
| KUser | KRole | KRoleGrants | KWarehouse | KDatabase | KSchema | KTable
| KGrantPrivilegesToAccountRole.

(** [pulumi.Input[str]]: a plain [str], an attribute of a declared
    resource (known after the apply phase only), or the deferred join
    built by [pulumi.Output.concat]. *)
Inductive Input : Type :=
| Plain (s : string)
| Attr (kind : Kind) (resource_name : string) (attribute : string)
| Concat (parts : list Input).

(** [pulumi.Output.concat], applied to its positional arguments. *)
Definition Output_concat (args : list Input) : Input := Concat args.

(** What the apply phase knows about resource attributes. *)
Definition Valuation : Type := Kind -> string -> string -> option string.

(** The value of a deferred string once the apply phase has run. *)
Fixpoint resolve (rho : Valuation) (i : Input) : option string :=
  match i with
  | Plain s => Some s
  | Attr k r a => rho k r a
  | Concat parts =>
      (fix join (l : list Input) : option string :=
         match l with
         | [] => Some ""
         | p :: l' =>
             match resolve rho p, join l' with
             | Some a, Some b => Some (a +:+ b)
             | _, _ => None
             end
         end) parts
  end.

End Pulumi.

Export Pulumi(Input, Plain, Attr, Concat).

(** ** The provider classes of pulumi_snowflake

One record per class, one field per keyword argument main.py passes,
typed as main.py passes it.  [resource_name] is the first positional
argument of the constructor: the engine's identifier of the
declaration. *)

Module Snowflake.

Module User.
Record t : Type := mk {
  resource_name : string;
  name : string;
  login_name : string;
  email : string;
  default_role : option string;
  default_warehouse : option string;
  default_namespace : option string;
  must_change_password : bool;
  disabled : bool;
  comment : string;
}.
End User.

Module Role.
Record t : Type := mk {
  resource_name : string;
  name : string;
  comment : string;
}.
End Role.

Module RoleGrants.
Record t : Type := mk {
  resource_name : string;
  role_name : Input;
  users : list Input;
}.
End RoleGrants.

Module Warehouse.
Record t : Type := mk {
  resource_name : string;
  name : string;
  warehouse_size : string;
  auto_suspend : Z;
  auto_resume : bool;
  initially_suspended : bool;
  max_cluster_count : Z;
  min_cluster_count : Z;
  comment : string;
}.
End Warehouse.

Module Database.
Record t : Type := mk {
  resource_name : string;
  name : string;
  comment : string;
  data_retention_time_in_days : Z;
}.
End Database.

Module Schema.
Record t : Type := mk {
  resource_name : string;
  database : Input;
  name : string;
  comment : string;
  data_retention_days : option Z;
  is_managed : bool;
}.
End Schema.

Module TableColumnArgs.
Record t : Type := mk {
  name : string;
  type : string;
  nullable : bool;
}.
End TableColumnArgs.

Module Table.
Record t : Type := mk {
  resource_name : string;
  database : Input;
  schema : Input;
  name : string;
  columns : list TableColumnArgs.t;
  comment : string;
  cluster_bys : option (list string);
}.
End Table.

Module GrantPrivilegesToAccountRoleOnAccountObjectArgs.
Record t : Type := mk {
  object_type : string;
  object_name : Input;
}.
End GrantPrivilegesToAccountRoleOnAccountObjectArgs.

Module GrantPrivilegesToAccountRoleOnSchemaArgs.
Record t : Type := mk {
  schema_name : Input;
}.
End GrantPrivilegesToAccountRoleOnSchemaArgs.

Module GrantPrivilegesToAccountRoleOnSchemaObjectAllArgs.
Record t : Type := mk {
  object_type_plural : string;
  in_schema : Input;
}.
End GrantPrivilegesToAccountRoleOnSchemaObjectAllArgs.

Module GrantPrivilegesToAccountRoleOnSchemaObjectArgs.
Record t : Type := mk {
  all : GrantPrivilegesToAccountRoleOnSchemaObjectAllArgs.t;
}.
End GrantPrivilegesToAccountRoleOnSchemaObjectArgs.

(** The three targets are keyword arguments of the class; each
    function of main.py passes exactly one of them. *)
Module GrantPrivilegesToAccountRole.
Record t : Type := mk {
  resource_name : string;
  account_role_name : Input;
  privileges : list string;
  on_account_object : option GrantPrivilegesToAccountRoleOnAccountObjectArgs.t;
  on_schema : option GrantPrivilegesToAccountRoleOnSchemaArgs.t;
  on_schema_object : option GrantPrivilegesToAccountRoleOnSchemaObjectArgs.t;
}.
End GrantPrivilegesToAccountRole.

(** A declaration, as the engine's registry holds it. *)
Inductive Resource : Type :=
| RUser (r : User.t)
| RRole (r : Role.t)
| RRoleGrants (r : RoleGrants.t)
| RWarehouse (r : Warehouse.t)
| RDatabase (r : Database.t)
| RSchema (r : Schema.t)
| RTable (r : Table.t)
| RGrantPrivilegesToAccountRole (r : GrantPrivilegesToAccountRole.t).

Definition kind_of (r : Resource) : Pulumi.Kind :=
  match r with
  | RUser _ => Pulumi.KUser
  | RRole _ => Pulumi.KRole
  | RRoleGrants _ => Pulumi.KRoleGrants
  | RWarehouse _ => Pulumi.KWarehouse
  | RDatabase _ => Pulumi.KDatabase
  | RSchema _ => Pulumi.KSchema
  | RTable _ => Pulumi.KTable
  | RGrantPrivilegesToAccountRole _ => Pulumi.KGrantPrivilegesToAccountRole
  end.

Definition resource_name_of (r : Resource) : string :=
  match r with
  | RUser x => User.resource_name x
  | RRole x => Role.resource_name x
  | RRoleGrants x => RoleGrants.resource_name x
  | RWarehouse x => Warehouse.resource_name x
  | RDatabase x => Database.resource_name x
  | RSchema x => Schema.resource_name x
  | RTable x => Table.resource_name x
  | RGrantPrivilegesToAccountRole x => GrantPrivilegesToAccountRole.resource_name x
  end.

(** [r.name] on a resource handle: an output of the declaration, not a
    string. *)
Definition name_attr (r : Resource) : Input :=
  Attr (kind_of r) (resource_name_of r) "name".

End Snowflake.

(** ** The declaration phase as a state and exception monad *)

Module Engine.
  Import Snowflake.

(** The engine's process-wide state: the declarations registered so far,
    in program order, and the stack outputs published by
    [pulumi.export]. *)
Record Stack : Type := mkStack {
  registry : list Resource;
  outputs : gmap string Input;
}.

Definition empty_stack : Stack := mkStack [] ∅.

Definition M (A : Type) : Type := Stack -> Outcome A * Stack.

Definition ret {A : Type} (a : A) : M A := fun st => (Returned a, st).

Definition bind {A B : Type} (m : M A) (f : A -> M B) : M B :=
  fun st =>
    match m st with
    | (Returned a, st') => f a st'
    | (Raised e, st') => (Raised e, st')
    end.

(** An expression that may raise but leaves the engine alone. *)
Definition lift {A : Type} (o : Outcome A) : M A := fun st => (o, st).

(** The constructor of a provider class: the declaration joins the
    registry. *)
Definition register (r : Resource) : M unit :=
  fun st => (Returned tt, mkStack (registry st ++ [r]) (outputs st)).

(** [pulumi.export(name, value)]. *)
Definition export (name : string) (value : Input) : M unit :=
  fun st => (Returned tt, mkStack (registry st) (<[name := value]> (outputs st))).

#[global] Instance M_ret : MRet M := @ret.
#[global] Instance M_bind : MBind M := fun A B f m => bind m f.

(** A list comprehension [[f(x) for x in xs]], left to right. *)
Fixpoint comprehension {A B : Type} (f : A -> M B) (xs : list A) : M (list B) :=
  match xs with
  | [] => mret []
  | x :: xs' => y ← f x; ys ← comprehension f xs'; mret (y :: ys)
  end.

End Engine.


(** ** main.py *)

Module Main.
  Import Snowflake Engine.

Section Program.

(** [config = pulumi.Config()]: the settings of the stack. *)
Variable config : gmap string string.

(** [environment = config.get("environment") or "dev"] *)
Definition environment : string :=
  Py.or_else (config !! "environment") "dev".

(** The f-string [f"Managed by Pulumi - {environment}"]. *)
Definition managed_by : string := "Managed by Pulumi - " +:+ environment.

Definition create_user
    (name login_name email : string)
    (default_role default_warehouse default_namespace : option string)
    (must_change_password disabled : Arg bool) : M User.t :=
  let must_change_password := Py.bind_default true must_change_password in
  let disabled := Py.bind_default false disabled in
  let r :=
    {| User.resource_name := name;
       User.name := login_name;
       User.login_name := login_name;
       User.email := email;
       User.default_role := default_role;
       User.default_warehouse := default_warehouse;
       User.default_namespace := default_namespace;
       User.must_change_password := must_change_password;
       User.disabled := disabled;
       User.comment := managed_by |} in
  register (RUser r);; mret r.

Definition create_role (name : string) (comment : option string) : M Role.t :=
  let r :=
    {| Role.resource_name := name;
       Role.name := name;
       Role.comment := Py.or_else comment managed_by |} in
  register (RRole r);; mret r.

Definition grant_role_to_user
    (name : string) (role_name user_name : Input) : M RoleGrants.t :=
  let r :=
    {| RoleGrants.resource_name := name;
       RoleGrants.role_name := role_name;
       RoleGrants.users := [user_name] |} in
  register (RRoleGrants r);; mret r.

Definition create_warehouse
    (name : string)
    (warehouse_size : Arg string)
    (auto_suspend : Arg Z)
    (auto_resume initially_suspended : Arg bool)
    (max_cluster_count min_cluster_count : Arg Z) : M Warehouse.t :=
  let warehouse_size := Py.bind_default "SMALL" warehouse_size in
  let auto_suspend := Py.bind_default 300 auto_suspend in
  let auto_resume := Py.bind_default true auto_resume in
  let initially_suspended := Py.bind_default true initially_suspended in
  let max_cluster_count := Py.bind_default 1 max_cluster_count in
  let min_cluster_count := Py.bind_default 1 min_cluster_count in
  let r :=
    {| Warehouse.resource_name := name;
       Warehouse.name := name;
       Warehouse.warehouse_size := warehouse_size;
       Warehouse.auto_suspend := auto_suspend;
       Warehouse.auto_resume := auto_resume;
       Warehouse.initially_suspended := initially_suspended;
       Warehouse.max_cluster_count := max_cluster_count;
       Warehouse.min_cluster_count := min_cluster_count;
       Warehouse.comment := managed_by |} in
  register (RWarehouse r);; mret r.

Definition create_database
    (name : string) (comment : option string)
    (data_retention_time_in_days : Arg Z) : M Database.t :=
  let data_retention_time_in_days :=
    Py.bind_default 1 data_retention_time_in_days in
  let r :=
    {| Database.resource_name := name;
       Database.name := name;
       Database.comment := Py.or_else comment managed_by;
       Database.data_retention_time_in_days := data_retention_time_in_days |} in
  register (RDatabase r);; mret r.

Definition create_schema
    (name : string) (database : Input) (schema_name : string)
    (comment : option string) (data_retention_days : option Z)
    (is_managed : Arg bool) : M Schema.t :=
  let is_managed := Py.bind_default false is_managed in
  let r :=
    {| Schema.resource_name := name;
       Schema.database := database;
       Schema.name := schema_name;
       Schema.comment := Py.or_else comment managed_by;
       Schema.data_retention_days := data_retention_days;
       Schema.is_managed := is_managed |} in
  register (RSchema r);; mret r.

(** The element expression of the comprehension in [create_table]:
    keyword arguments are evaluated in the order written. *)
Definition column_spec (col : gmap string string) : M TableColumnArgs.t :=
  name ← lift (Py.getitem col "name");
  type ← lift (Py.getitem col "type");
  mret {| TableColumnArgs.name := name;
          TableColumnArgs.type := type;
          TableColumnArgs.nullable :=
            Py.str_eq (Py.get col "nullable" "true") "true" |}.

Definition create_table
    (name : string) (database schema : Input) (table_name : string)
    (columns : list (gmap string string))
    (comment : option string) (cluster_by : option (list string)) : M Table.t :=
  column_specs ← comprehension column_spec columns;
  let r :=
    {| Table.resource_name := name;
       Table.database := database;
       Table.schema := schema;
       Table.name := table_name;
       Table.columns := column_specs;
       Table.comment := Py.or_else comment managed_by;
       Table.cluster_bys := cluster_by |} in
  register (RTable r);; mret r.

Definition grant_database_usage
    (name : string) (database_name role : Input)
    : M GrantPrivilegesToAccountRole.t :=
  let r :=
    {| GrantPrivilegesToAccountRole.resource_name := name;
       GrantPrivilegesToAccountRole.account_role_name := role;
       GrantPrivilegesToAccountRole.privileges := ["USAGE"];
       GrantPrivilegesToAccountRole.on_account_object :=
         Some {| GrantPrivilegesToAccountRoleOnAccountObjectArgs.object_type := "DATABASE";
                 GrantPrivilegesToAccountRoleOnAccountObjectArgs.object_name := database_name |};
       GrantPrivilegesToAccountRole.on_schema := None;
       GrantPrivilegesToAccountRole.on_schema_object := None |} in
  register (RGrantPrivilegesToAccountRole r);; mret r.

Definition grant_schema_usage
    (name : string) (database_name schema_name role : Input)
    : M GrantPrivilegesToAccountRole.t :=
  let r :=
    {| GrantPrivilegesToAccountRole.resource_name := name;
       GrantPrivilegesToAccountRole.account_role_name := role;
       GrantPrivilegesToAccountRole.privileges := ["USAGE"];
       GrantPrivilegesToAccountRole.on_account_object := None;
       GrantPrivilegesToAccountRole.on_schema :=
         Some {| GrantPrivilegesToAccountRoleOnSchemaArgs.schema_name :=
                   Pulumi.Output_concat [database_name; Plain "."; schema_name] |};
       GrantPrivilegesToAccountRole.on_schema_object := None |} in
  register (RGrantPrivilegesToAccountRole r);; mret r.

(** The body is one [if] without an [else]: with [all_tables] false
    control reaches the end of the function, which returns [None]. *)
Definition grant_table_select
    (name : string) (database_name schema_name role : Input)
    (all_tables : Arg bool) : M (option GrantPrivilegesToAccountRole.t) :=
  let all_tables := Py.bind_default true all_tables in
  if all_tables then
    let r :=
      {| GrantPrivilegesToAccountRole.resource_name := name;
         GrantPrivilegesToAccountRole.account_role_name := role;
         GrantPrivilegesToAccountRole.privileges := ["SELECT"];
         GrantPrivilegesToAccountRole.on_account_object := None;
         GrantPrivilegesToAccountRole.on_schema := None;
         GrantPrivilegesToAccountRole.on_schema_object :=
           Some {| GrantPrivilegesToAccountRoleOnSchemaObjectArgs.all :=
             {| GrantPrivilegesToAccountRoleOnSchemaObjectAllArgs.object_type_plural := "TABLES";
                GrantPrivilegesToAccountRoleOnSchemaObjectAllArgs.in_schema :=
                  Pulumi.Output_concat [database_name; Plain "."; schema_name] |} |} |} in
    register (RGrantPrivilegesToAccountRole r);; mret (Some r)
  else mret None.

Definition grant_warehouse_usage
    (name : string) (warehouse_name role : Input)
    : M GrantPrivilegesToAccountRole.t :=
  let r :=
    {| GrantPrivilegesToAccountRole.resource_name := name;
       GrantPrivilegesToAccountRole.account_role_name := role;
       GrantPrivilegesToAccountRole.privileges := ["USAGE"];
       GrantPrivilegesToAccountRole.on_account_object :=
         Some {| GrantPrivilegesToAccountRoleOnAccountObjectArgs.object_type := "WAREHOUSE";
                 GrantPrivilegesToAccountRoleOnAccountObjectArgs.object_name := warehouse_name |};
       GrantPrivilegesToAccountRole.on_schema := None;
       GrantPrivilegesToAccountRole.on_schema_object := None |} in
  register (RGrantPrivilegesToAccountRole r);; mret r.

End Program.

(** The module-level names that are bound to a resource handle when
    control reaches the EXPORTS block.  main.py binds its imports,
    [config], [environment] and its eleven functions; it calls none of
    the functions at module level, so no name is bound to a handle. *)
Definition module_handles : gmap string Resource := ∅.

(** The load of a global name that is read as a resource handle. *)
Definition load_global
    (globals : gmap string Resource) (n : string) : M Resource :=
  match globals !! n with
  | Some r => mret r
  | None => lift (Raised (Py.NameError n))
  end.

(** The EXPORTS block that ends main.py, lines 313 to 318, over the
    globals of the module: each statement loads a name, takes the [name]
    attribute of the handle and publishes it. *)
Definition exports (globals : gmap string Resource) : M unit :=
  example_wh ← load_global globals "example_wh";
  export "warehouse" (name_attr example_wh);;
  example_db ← load_global globals "example_db";
  export "database" (name_attr example_db);;
  example_schema ← load_global globals "example_schema";
  export "schema" (name_attr example_schema);;
  example_table ← load_global globals "example_table";
  export "table" (name_attr example_table);;
  example_user ← load_global globals "example_user";
  export "user" (name_attr example_user);;
  example_role ← load_global globals "example_role";
  export "role" (name_attr example_role).

(** main.py run as the program of a stack.  The assignments of [config]
    and [environment] and the eleven [def] statements declare nothing;
    the EXPORTS block then runs over the globals they leave. *)
Definition main (config : gmap string string) : M unit :=
  let environment := environment config in
  exports module_handles.

End Main.

(** ** Properties, stated over the embedding *)

Module Props.
  Import Snowflake Engine Main.

(** What a column descriptor owes to the column mapping it was built
    from: its name and type are the mapping's, and it is nullable
    exactly when the mapping's [nullable], read with the default
    ["true"], is the string ["true"]. *)
Definition column_matches
    (col : gmap string string) (d : TableColumnArgs.t) : Prop :=
  col !! "name" = Some (TableColumnArgs.name d) ∧
  col !! "type" = Some (TableColumnArgs.type d) ∧
  (TableColumnArgs.nullable d = true ↔
     default "true" (col !! "nullable") = "true") ∧
  (col !! "nullable" = None → TableColumnArgs.nullable d = true) ∧
  (∀ s, col !! "nullable" = Some s → s ≠ "true" →
        TableColumnArgs.nullable d = false).

(** The column list of the docstring scenario. *)
Definition scenario_columns : list (gmap string string) :=
  [ {[ "name" := "ID"; "type" := "NUMBER(38,0)"; "nullable" := "false" ]};
    {[ "name" := "NAME"; "type" := "VARCHAR(100)" ]} ].

(** Every column mapping has the two keys the comprehension
    subscripts. *)
Definition well_keyed (col : gmap string string) : Prop :=
  is_Some (col !! "name") ∧ is_Some (col !! "type").

(** The comment stamp, as the spec writes it. *)
Definition stamp (config : gmap string string) : string :=
  "Managed by Pulumi - " +:+ environment config.

(** The key whose subscript fails when a column mapping is turned into a
    descriptor: [name] is subscripted before [type]. *)
Definition first_missing_key (col : gmap string string) : option string :=
  match col !! "name", col !! "type" with
  | None, _ => Some "name"
  | Some _, None => Some "type"
  | Some _, Some _ => None
  end.

(** Two column mappings agree on the three keys [create_table] reads. *)
Definition same_read_keys (c c' : gmap string string) : Prop :=
  c !! "name" = c' !! "name" ∧
  c !! "type" = c' !! "type" ∧
  c !! "nullable" = c' !! "nullable".

(** How many of the three targets a grant declaration sets. *)
Definition target_count (g : GrantPrivilegesToAccountRole.t) : nat :=
  length (option_list (GrantPrivilegesToAccountRole.on_account_object g)) +
  length (option_list (GrantPrivilegesToAccountRole.on_schema g)) +
  length (option_list (GrantPrivilegesToAccountRole.on_schema_object g)).

(** A call returns a handle and registers that very handle, as a
    declaration named [n], after the declarations already there; the
    stack outputs stay as they are. *)
Definition declares {A : Type} (wrap : A → Resource) (n : string)
    (m : M A) (st : Stack) : Prop :=
  ∃ a, m st = (Returned a, mkStack (registry st ++ [wrap a]) (outputs st)) ∧
       resource_name_of (wrap a) = n.

End Props.

Import Snowflake Engine Main Props.

(** Unfolds the monad down to pairs of an outcome and a stack. *)
Ltac run :=
  unfold mbind, M_bind, mret, M_ret, bind, ret, lift, register, export in *;
  simpl in *.

Section PythonFacts.

Lemma str_eq_iff (a b : string) : Py.str_eq a b = true ↔ a = b.
Proof. unfold Py.str_eq. apply String.eqb_eq. Qed.

Lemma str_eq_false (a b : string) : a ≠ b → Py.str_eq a b = false.
Proof.
  intros Hne. destruct (Py.str_eq a b) eqn:E; [|done].
  apply str_eq_iff in E. contradiction.
Qed.

Lemma get_default (d : gmap string string) (k dflt : string) :
  Py.get d k dflt = default dflt (d !! k).
Proof. unfold Py.get. by destruct (d !! k). Qed.

Lemma or_else_None (d : string) : Py.or_else None d = d.
Proof. reflexivity. Qed.

Lemma or_else_empty (d : string) : Py.or_else (Some "") d = d.
Proof. reflexivity. Qed.

Lemma or_else_nonempty (s d : string) : s ≠ "" → Py.or_else (Some s) d = s.
Proof.
  intros Hne. unfold Py.or_else, Py.truthy.
  destruct (String.eqb s "") eqn:E; [|done].
  apply String.eqb_eq in E. contradiction.
Qed.

Lemma or_else_falsy (o : option string) (d : string) :
  Py.truthy o = false → Py.or_else o d = d.
Proof. destruct o as [s|]; simpl; [|done]. by intros ->. Qed.

End PythonFacts.

Section Columns.

Lemma column_spec_returned col st d st' :
  column_spec col st = (Returned d, st') →
  st' = st ∧ column_matches col d.
Proof.
  unfold column_spec, Py.getitem. run.
  destruct (col !! "name") as [n|] eqn:Hn; [|done].
  destruct (col !! "type") as [ty|] eqn:Hty; [|done].
  intros [= <- <-]. split; [done|].
  unfold column_matches; simpl. rewrite get_default.
  repeat split; try done.
  - apply str_eq_iff.
  - apply str_eq_iff.
  - intros ->. by apply str_eq_iff.
  - intros s -> Hs. by apply str_eq_false.
Qed.

Lemma column_spec_stack col st : (column_spec col st).2 = st.
Proof.
  unfold column_spec, Py.getitem. run.
  destruct (col !! "name"); [|done]. by destruct (col !! "type").
Qed.

Lemma column_spec_total col st :
  well_keyed col → ∃ d, column_spec col st = (Returned d, st).
Proof.
  intros [[n Hn] [ty Hty]]. unfold column_spec, Py.getitem. run.
  rewrite Hn, Hty. eauto.
Qed.

Lemma comprehension_stack cols : ∀ st,
  (comprehension column_spec cols st).2 = st.
Proof.
  induction cols as [|col cols IH]; intros st; [done|].
  simpl. run. pose proof (column_spec_stack col st) as Hs.
  destruct (column_spec col st) as [[d|e] st1]; simpl in Hs; subst st1; [|done].
  specialize (IH st).
  by destruct (comprehension column_spec cols st) as [[ds|e] st2]; simpl in IH; subst st2.
Qed.

Lemma comprehension_returned cols : ∀ st ds st',
  comprehension column_spec cols st = (Returned ds, st') →
  st' = st ∧ Forall2 column_matches cols ds.
Proof.
  induction cols as [|col cols IH]; intros st ds st'; simpl; run.
  - intros [= <- <-]. by split.
  - destruct (column_spec col st) as [[d|e] st1] eqn:Hd; [|done].
    apply column_spec_returned in Hd as [-> Hd].
    destruct (comprehension column_spec cols st) as [[ds'|e] st2] eqn:Hds; [|done].
    apply IH in Hds as [-> Hds]. intros [= <- <-].
    split; [done|]. by constructor.
Qed.

Lemma comprehension_total cols : ∀ st,
  Forall well_keyed cols →
  ∃ ds, comprehension column_spec cols st = (Returned ds, st).
Proof.
  induction cols as [|col cols IH]; intros st Hk; simpl; run; [eauto|].
  apply Forall_cons in Hk as [Hc Hk].
  destruct (column_spec_total col st Hc) as [d ->].
  destruct (IH st Hk) as [ds ->]. eauto.
Qed.

End Columns.

(** ** create_table *)

Section Tables.

Lemma create_table_returned config name database schema table_name
    columns comment cluster_by st t st' :
  create_table config name database schema table_name columns comment
    cluster_by st = (Returned t, st') →
  Forall2 column_matches columns (Table.columns t) ∧
  t = {| Table.resource_name := name;
         Table.database := database;
         Table.schema := schema;
         Table.name := table_name;
         Table.columns := Table.columns t;
         Table.comment := Py.or_else comment (managed_by config);
         Table.cluster_bys := cluster_by |} ∧
  st' = mkStack (registry st ++ [RTable t]) (outputs st).
Proof.
  unfold create_table. run.
  destruct (comprehension column_spec columns st) as [[ds|e] st1] eqn:Hds;
    [|done].
  apply comprehension_returned in Hds as [-> Hds].
  intros [= <- <-]. by simpl.
Qed.

Lemma create_table_total config name database schema table_name
    columns comment cluster_by st :
  Forall well_keyed columns →
  ∃ t st', create_table config name database schema table_name columns
             comment cluster_by st = (Returned t, st').
Proof.
  intros Hk. unfold create_table. run.
  destruct (comprehension_total columns st Hk) as [ds ->]. eauto.
Qed.

Lemma scenario_columns_well_keyed : Forall well_keyed scenario_columns.
Proof.
  unfold scenario_columns, well_keyed.
  repeat constructor; by vm_compute; eexists.
Qed.

End Tables.

(** C1.  Whenever [create_table] returns a table, its column descriptors
    stand one for one, in order, for the column mappings passed, and a
    descriptor is nullable if and only if the mapping's [nullable] entry,
    taken as "true" when absent, is exactly the string "true": an absent
    entry gives a nullable column and any other string a non-nullable
    one.  For the two columns ID (nullable "false") and NAME (no nullable
    entry) the descriptors are, in order, non-nullable and nullable. *)
Theorem create_table_nullable_iff_true
    config name database schema table_name columns comment cluster_by
    st t st' :
  create_table config name database schema table_name columns comment
    cluster_by st = (Returned t, st') →
  Forall2 column_matches columns (Table.columns t) ∧
  (columns = scenario_columns →
   TableColumnArgs.name <$> Table.columns t = ["ID"; "NAME"] ∧
   TableColumnArgs.nullable <$> Table.columns t = [false; true]).
Proof.
  intros Hrun. apply create_table_returned in Hrun as (Hcols & _ & _).
  split; [done|]. intros ->. unfold scenario_columns in Hcols.
  apply Forall2_cons_inv_l in Hcols as (d1 & ds1 & Hid & Hrest & ->).
  apply Forall2_cons_inv_l in Hrest as (d2 & ds2 & Hnm & Hnil & ->).
  apply Forall2_nil_inv_l in Hnil as ->. simpl.
  destruct Hid as (Hn1 & _ & _ & _ & Hf1), Hnm as (Hn2 & _ & _ & Ht2 & _).
  change (Some "ID" = Some (TableColumnArgs.name d1)) in Hn1.
  change (Some "NAME" = Some (TableColumnArgs.name d2)) in Hn2.
  injection Hn1 as <-. injection Hn2 as <-.
  rewrite (Hf1 "false"), Ht2; done.
Qed.

Lemma create_table_nullable_iff_true_witness :
  ∃ t st',
    create_table ∅ "example_table" (Plain "DB") (Plain "PUBLIC") "EVENTS"
      scenario_columns None None empty_stack = (Returned t, st') ∧
    Forall2 column_matches scenario_columns (Table.columns t) ∧
    TableColumnArgs.nullable <$> Table.columns t = [false; true].
Proof.
  eexists _, _. split; [vm_compute; reflexivity|].
  pose proof (create_table_nullable_iff_true ∅ "example_table" (Plain "DB")
    (Plain "PUBLIC") "EVENTS" scenario_columns None None empty_stack _ _
    eq_refl) as [Hall Hscen].
  split; [exact Hall|]. exact (proj2 (Hscen eq_refl)).
Defined.

(** ** Grants *)

Section Grants.

Lemma append_empty_r (z : string) : z +:+ "" = z.
Proof.
  induction z as [|c z IH]; [done|].
  change (String c (z +:+ "") = String c z). by f_equal.
Qed.

(** The deferred join of three operands resolves to the join of what
    they resolve to. *)
Lemma resolve_concat3 rho (a b c : Input) :
  Pulumi.resolve rho (Pulumi.Output_concat [a; b; c]) =
    x ← Pulumi.resolve rho a;
    y ← Pulumi.resolve rho b;
    z ← Pulumi.resolve rho c;
    Some (x +:+ y +:+ z).
Proof.
  simpl.
  destruct (Pulumi.resolve rho a) as [x|]; [|done].
  destruct (Pulumi.resolve rho b) as [y|]; simpl; [|done].
  destruct (Pulumi.resolve rho c) as [z|]; simpl; [|done].
  by rewrite append_empty_r.
Qed.

End Grants.

(** C2.  With [all_tables=False], [grant_table_select] neither raises nor
    declares anything: it returns [None] and leaves the engine as it was. *)
Theorem grant_table_select_not_all_returns_None
    (name : string) (database_name schema_name role : Input) (st : Stack) :
  grant_table_select name database_name schema_name role (Passed false) st
    = (Returned None, st) ∧
  ∀ e st', grant_table_select name database_name schema_name role
             (Passed false) st ≠ (Raised e, st').
Proof. split; [reflexivity|]. intros e st'. discriminate. Qed.

(** C3.  Whatever the arguments, the three usage grants declare the
    privilege list ["USAGE"] and [grant_table_select], called without
    [all_tables] or with it true, declares ["SELECT"]; each call returns
    and registers that one declaration. *)
Theorem grants_request_fixed_privileges
    (name : string) (object_name database_name schema_name role : Input)
    (st : Stack) :
  (∃ g, grant_database_usage name object_name role st
          = (Returned g, mkStack (registry st ++ [RGrantPrivilegesToAccountRole g]) (outputs st)) ∧
        GrantPrivilegesToAccountRole.privileges g = ["USAGE"]) ∧
  (∃ g, grant_schema_usage name database_name schema_name role st
          = (Returned g, mkStack (registry st ++ [RGrantPrivilegesToAccountRole g]) (outputs st)) ∧
        GrantPrivilegesToAccountRole.privileges g = ["USAGE"]) ∧
  (∃ g, grant_warehouse_usage name object_name role st
          = (Returned g, mkStack (registry st ++ [RGrantPrivilegesToAccountRole g]) (outputs st)) ∧
        GrantPrivilegesToAccountRole.privileges g = ["USAGE"]) ∧
  (∀ all_tables, Py.bind_default true all_tables = true →
     ∃ g, grant_table_select name database_name schema_name role all_tables st
            = (Returned (Some g), mkStack (registry st ++ [RGrantPrivilegesToAccountRole g]) (outputs st)) ∧
          GrantPrivilegesToAccountRole.privileges g = ["SELECT"]).
Proof.
  repeat split; try (eexists; split; reflexivity).
  intros all_tables Hall. unfold grant_table_select. rewrite Hall.
  eexists; split; reflexivity.
Qed.

Lemma grants_request_fixed_privileges_witness :
  ∃ g, grant_table_select "sel" (Plain "DB") (Plain "PUBLIC") (Plain "ANALYST")
         (Passed true) empty_stack
         = (Returned (Some g), mkStack [RGrantPrivilegesToAccountRole g] ∅) ∧
       GrantPrivilegesToAccountRole.privileges g = ["SELECT"].
Proof.
  exact (proj2 (proj2 (proj2 (grants_request_fixed_privileges "sel"
    (Plain "DB") (Plain "DB") (Plain "PUBLIC") (Plain "ANALYST") empty_stack)))
    (Passed true) eq_refl).
Defined.

(** C6.  [grant_schema_usage] declares a schema target that is the
    deferred join of the database name, the string ".", and the schema
    name, in that order; once the operands resolve to [d] and [s] the
    target resolves to [d], a dot, [s], and it stays unresolved as long as
    an operand is.  For "DB" and "PUBLIC" it resolves to "DB.PUBLIC". *)
Theorem grant_schema_usage_target
    (name : string) (database_name schema_name role : Input) (st : Stack)
    (rho : Pulumi.Valuation) :
  ∃ g st' target,
    grant_schema_usage name database_name schema_name role st = (Returned g, st') ∧
    GrantPrivilegesToAccountRole.on_schema g
      = Some (GrantPrivilegesToAccountRoleOnSchemaArgs.mk target) ∧
    target = Concat [database_name; Plain "."; schema_name] ∧
    Pulumi.resolve rho target =
      (d ← Pulumi.resolve rho database_name;
       s ← Pulumi.resolve rho schema_name;
       Some (d +:+ "." +:+ s)) ∧
    (database_name = Plain "DB" → schema_name = Plain "PUBLIC" →
     Pulumi.resolve rho target = Some "DB.PUBLIC").
Proof.
  eexists _, _, _. split; [reflexivity|]. split; [reflexivity|].
  split; [reflexivity|]. split.
  - change (Concat [database_name; Plain "."; schema_name])
      with (Pulumi.Output_concat [database_name; Plain "."; schema_name]).
    rewrite resolve_concat3. simpl.
    by destruct (Pulumi.resolve rho database_name).
  - by intros -> ->.
Qed.

Lemma grant_schema_usage_target_witness :
  ∃ g st' target,
    grant_schema_usage "usage" (Plain "DB") (Plain "PUBLIC") (Plain "ANALYST")
      empty_stack = (Returned g, st') ∧
    GrantPrivilegesToAccountRole.on_schema g
      = Some (GrantPrivilegesToAccountRoleOnSchemaArgs.mk target) ∧
    Pulumi.resolve (fun _ _ _ => None) target = Some "DB.PUBLIC".
Proof.
  destruct (grant_schema_usage_target "usage" (Plain "DB") (Plain "PUBLIC")
    (Plain "ANALYST") empty_stack (fun _ _ _ => None))
    as (g & st' & target & Hrun & Hon & _ & _ & Hscen).
  exists g, st', target. split; [exact Hrun|]. split; [exact Hon|].
  exact (Hscen eq_refl eq_refl).
Defined.

(** ** Warehouses, role grants, users *)

(** C7.  [create_warehouse] called with a name and nothing else declares
    a warehouse of that name with size "SMALL", auto_suspend 300,
    auto_resume and initially_suspended true, and both cluster counts 1. *)
Theorem create_warehouse_defaults
    (config : gmap string string) (name : string) (st : Stack) :
  ∃ w,
    create_warehouse config name Omitted Omitted Omitted Omitted Omitted
      Omitted st
      = (Returned w, mkStack (registry st ++ [RWarehouse w]) (outputs st)) ∧
    Warehouse.name w = name ∧
    Warehouse.warehouse_size w = "SMALL" ∧
    Warehouse.auto_suspend w = 300 ∧
    Warehouse.auto_resume w = true ∧
    Warehouse.initially_suspended w = true ∧
    Warehouse.min_cluster_count w = 1 ∧
    Warehouse.max_cluster_count w = 1.
Proof. eexists. by repeat split. Qed.

(** C8.  [grant_role_to_user] declares one RoleGrants whose role is the
    role name given and whose users list has exactly one element, the
    user name given. *)
Theorem grant_role_to_user_single_user
    (name : string) (role_name user_name : Input) (st : Stack) :
  ∃ g,
    grant_role_to_user name role_name user_name st
      = (Returned g, mkStack (registry st ++ [RRoleGrants g]) (outputs st)) ∧
    RoleGrants.role_name g = role_name ∧
    RoleGrants.users g = [user_name] ∧
    length (RoleGrants.users g) = 1%nat.
Proof. eexists. by repeat split. Qed.

(** C10.  [create_user] declares a user whose [name] and [login_name]
    are both the [login_name] argument; the first positional argument is
    the declaration's identifier and appears in no other attribute, so two
    calls that differ in it alone declare users that differ in the
    identifier alone. *)
Theorem create_user_name_is_login_name
    (config : gmap string string) (name login_name email : string)
    (default_role default_warehouse default_namespace : option string)
    (must_change_password disabled : Arg bool) (st : Stack) :
  ∃ u,
    create_user config name login_name email default_role default_warehouse
      default_namespace must_change_password disabled st
      = (Returned u, mkStack (registry st ++ [RUser u]) (outputs st)) ∧
    User.resource_name u = name ∧
    User.name u = login_name ∧
    User.login_name u = login_name ∧
    ∀ name', ∃ u',
      create_user config name' login_name email default_role
        default_warehouse default_namespace must_change_password disabled st
        = (Returned u', mkStack (registry st ++ [RUser u']) (outputs st)) ∧
      u' = User.mk name' (User.name u) (User.login_name u) (User.email u)
             (User.default_role u) (User.default_warehouse u)
             (User.default_namespace u) (User.must_change_password u)
             (User.disabled u) (User.comment u).
Proof.
  eexists. repeat split. intros name'. eexists. by split.
Qed.

(** ** Comments *)

Section Environment.

Variable config : gmap string string.

Lemma environment_configured (e : string) :
  config !! "environment" = Some e → e ≠ "" → environment config = e.
Proof. intros He Hne. unfold environment. rewrite He. by apply or_else_nonempty. Qed.

Lemma environment_default :
  Py.truthy (config !! "environment") = false → environment config = "dev".
Proof. apply or_else_falsy. Qed.

Lemma stamp_is_managed_by : stamp config = managed_by config.
Proof. reflexivity. Qed.

End Environment.

(** C4.  A declaration made without a comment carries the comment
    "Managed by Pulumi - " followed by the configured environment: the
    value of the [environment] setting of the stack when that is a
    non-empty string, and "dev" when the setting is absent or empty.
    [create_user] and [create_warehouse] stamp every call; [create_role],
    [create_database] and [create_schema] do when [comment] is left out
    or [None]; [create_table] likewise whenever it returns, which it does
    when every column mapping has a name and a type. *)
Theorem omitted_comment_is_environment_stamp
    (config : gmap string string) (label : string) (st : Stack) :
  (config !! "environment" = Some label ∧ label ≠ "") ∨
  ((config !! "environment" = None ∨ config !! "environment" = Some "") ∧
   label = "dev") →
  (∀ name login_name email default_role default_warehouse default_namespace
     must_change_password disabled,
     ∃ u st', create_user config name login_name email default_role
                default_warehouse default_namespace must_change_password
                disabled st = (Returned u, st') ∧
              User.comment u = "Managed by Pulumi - " +:+ label) ∧
  (∀ name warehouse_size auto_suspend auto_resume initially_suspended
     max_cluster_count min_cluster_count,
     ∃ w st', create_warehouse config name warehouse_size auto_suspend
                auto_resume initially_suspended max_cluster_count
                min_cluster_count st = (Returned w, st') ∧
              Warehouse.comment w = "Managed by Pulumi - " +:+ label) ∧
  (∀ name,
     ∃ r st', create_role config name None st = (Returned r, st') ∧
              Role.comment r = "Managed by Pulumi - " +:+ label) ∧
  (∀ name data_retention_time_in_days,
     ∃ d st', create_database config name None data_retention_time_in_days st
                = (Returned d, st') ∧
              Database.comment d = "Managed by Pulumi - " +:+ label) ∧
  (∀ name database schema_name data_retention_days is_managed,
     ∃ s st', create_schema config name database schema_name None
                data_retention_days is_managed st = (Returned s, st') ∧
              Schema.comment s = "Managed by Pulumi - " +:+ label) ∧
  (∀ name database schema table_name columns cluster_by,
     (∀ t st', create_table config name database schema table_name columns
                 None cluster_by st = (Returned t, st') →
               Table.comment t = "Managed by Pulumi - " +:+ label) ∧
     (Forall well_keyed columns →
      ∃ t st', create_table config name database schema table_name columns
                 None cluster_by st = (Returned t, st') ∧
               Table.comment t = "Managed by Pulumi - " +:+ label)).
Proof.
  intros Hlabel.
  assert (Henv : environment config = label).
  { destruct Hlabel as [[Hset Hne]|[Hunset ->]].
    - by apply environment_configured.
    - apply environment_default. destruct Hunset as [H|H]; by rewrite H. }
  assert (Hstamp : managed_by config = "Managed by Pulumi - " +:+ label).
  { unfold managed_by. by rewrite Henv. }
  repeat split; intros;
    try (eexists _, _; split; [reflexivity|]; simpl; exact Hstamp).
  - match goal with H : create_table _ _ _ _ _ _ _ _ _ = _ |- _ =>
      apply create_table_returned in H as (_ & -> & _) end.
    exact Hstamp.
  - match goal with H : Forall well_keyed _ |- _ =>
      destruct (create_table_total config name database schema table_name
                  columns None cluster_by st H) as (t & st' & Hrun) end.
    exists t, st'. split; [done|].
    apply create_table_returned in Hrun as (_ & -> & _). exact Hstamp.
Qed.

Lemma omitted_comment_is_environment_stamp_witness :
  (∃ t st',
     create_table {[ "environment" := "prod" ]} "example_table" (Plain "DB")
       (Plain "PUBLIC") "EVENTS" scenario_columns None None empty_stack
       = (Returned t, st') ∧
     Table.comment t = "Managed by Pulumi - prod") ∧
  (∃ r st',
     create_role {[ "region" := "eu" ]} "ANALYST" None empty_stack
       = (Returned r, st') ∧
     Role.comment r = "Managed by Pulumi - dev").
Proof.
  split.
  - assert (Hprod : "prod" ≠ "") by discriminate.
    exact (proj2 (proj2 (proj2 (proj2 (proj2 (proj2
      (omitted_comment_is_environment_stamp {[ "environment" := "prod" ]}
         "prod" empty_stack (or_introl (conj eq_refl Hprod)))))))
         "example_table" (Plain "DB") (Plain "PUBLIC") "EVENTS"
         scenario_columns None)
      scenario_columns_well_keyed).
  - exact (proj1 (proj2 (proj2
      (omitted_comment_is_environment_stamp {[ "region" := "eu" ]} "dev"
         empty_stack (or_intror (conj (or_introl eq_refl) eq_refl)))))
      "ANALYST").
Defined.

(** C9.  An empty string passed as [comment] to [create_role],
    [create_database], [create_schema] or [create_table] is treated as no
    comment: the call does what the same call with [None] does, and the
    declared comment is the environment stamp, never the empty string. *)
Theorem empty_comment_is_environment_stamp
    (config : gmap string string) (st : Stack) :
  (∀ name,
     create_role config name (Some "") st = create_role config name None st ∧
     ∃ r st', create_role config name (Some "") st = (Returned r, st') ∧
              Role.comment r = "Managed by Pulumi - " +:+ environment config ∧
              Role.comment r ≠ "") ∧
  (∀ name data_retention_time_in_days,
     create_database config name (Some "") data_retention_time_in_days st
       = create_database config name None data_retention_time_in_days st ∧
     ∃ d st', create_database config name (Some "") data_retention_time_in_days st
                = (Returned d, st') ∧
              Database.comment d = "Managed by Pulumi - " +:+ environment config ∧
              Database.comment d ≠ "") ∧
  (∀ name database schema_name data_retention_days is_managed,
     create_schema config name database schema_name (Some "")
       data_retention_days is_managed st
       = create_schema config name database schema_name None
           data_retention_days is_managed st ∧
     ∃ s st', create_schema config name database schema_name (Some "")
                data_retention_days is_managed st = (Returned s, st') ∧
              Schema.comment s = "Managed by Pulumi - " +:+ environment config ∧
              Schema.comment s ≠ "") ∧
  (∀ name database schema table_name columns cluster_by,
     create_table config name database schema table_name columns (Some "")
       cluster_by st
       = create_table config name database schema table_name columns None
           cluster_by st ∧
     (Forall well_keyed columns →
      ∃ t st', create_table config name database schema table_name columns
                 (Some "") cluster_by st = (Returned t, st') ∧
               Table.comment t = "Managed by Pulumi - " +:+ environment config ∧
               Table.comment t ≠ "")).
Proof.
  repeat split; intros;
    try (eexists _, _; split; [reflexivity|]; split; [reflexivity|]; done).
  match goal with H : Forall well_keyed _ |- _ =>
    destruct (create_table_total config name database schema table_name
                columns (Some "") cluster_by st H) as (t & st' & Hrun) end.
  exists t, st'. split; [done|].
  apply create_table_returned in Hrun as (_ & -> & _). by split.
Qed.

Lemma empty_comment_is_environment_stamp_witness :
  ∃ t st',
    create_table ∅ "example_table" (Plain "DB") (Plain "PUBLIC") "EVENTS"
      scenario_columns (Some "") None empty_stack = (Returned t, st') ∧
    Table.comment t = "Managed by Pulumi - dev" ∧
    Table.comment t ≠ "".
Proof.
  exact (proj2 (proj2 (proj2 (proj2
    (empty_comment_is_environment_stamp ∅ empty_stack))) "example_table"
    (Plain "DB") (Plain "PUBLIC") "EVENTS" scenario_columns None)
    scenario_columns_well_keyed).
Defined.

(** ** Exports *)

Section ExportBlock.

(** What the block does once all six names are bound: it publishes the
    [name] attribute of each handle under its key and declares nothing. *)
Lemma exports_bound (globals : gmap string Resource)
    (wh db sc tb us ro : Resource) (st : Stack) :
  globals !! "example_wh" = Some wh →
  globals !! "example_db" = Some db →
  globals !! "example_schema" = Some sc →
  globals !! "example_table" = Some tb →
  globals !! "example_user" = Some us →
  globals !! "example_role" = Some ro →
  exports globals st
  = (Returned tt,
     mkStack (registry st)
       (<["role" := name_attr ro]> (<["user" := name_attr us]>
        (<["table" := name_attr tb]> (<["schema" := name_attr sc]>
         (<["database" := name_attr db]> (<["warehouse" := name_attr wh]>
          (outputs st)))))))).
Proof.
  intros Hwh Hdb Hsc Htb Hus Hro. unfold exports, load_global.
  rewrite Hwh, Hdb, Hsc, Htb, Hus, Hro. reflexivity.
Qed.

(** The first name of the block that is unbound stops it. *)
Lemma exports_unbound_first (globals : gmap string Resource) (st : Stack) :
  globals !! "example_wh" = None →
  exports globals st = (Raised (Py.NameError "example_wh"), st).
Proof.
  intros Hwh. unfold exports, load_global. rewrite Hwh. reflexivity.
Qed.

End ExportBlock.

(** C5.  main.py as it stands publishes no output.  The EXPORTS block
    reads [example_wh], which nothing in the module binds: whatever the
    configuration and the state of the engine, the program stops there
    with a NameError for that name, before the first export, and the
    outputs and the registry are what they were. *)
Theorem main_raises_NameError_before_any_export
    (config : gmap string string) (st : Stack) :
  main config st = (Raised (Py.NameError "example_wh"), st) ∧
  (∀ st', main config st ≠ (Returned tt, st')) ∧
  outputs (main config st).2 = outputs st ∧
  registry (main config st).2 = registry st.
Proof.
  assert (Hrun : main config st = (Raised (Py.NameError "example_wh"), st)).
  { unfold main. by apply exports_unbound_first. }
  rewrite Hrun. repeat split. intros st'. discriminate.
Qed.

(** ** create_table: failure and what the comprehension reads *)

Section ColumnFailures.

Lemma first_missing_key_None col :
  first_missing_key col = None ↔ well_keyed col.
Proof.
  unfold first_missing_key, well_keyed.
  destruct (col !! "name"), (col !! "type"); split; try done.
  - intros [_ [? ?]]; done.
  - intros [[? ?] _]; done.
  - intros [[? ?] _]; done.
Qed.

Lemma column_spec_missing col key st :
  first_missing_key col = Some key →
  column_spec col st = (Raised (Py.KeyError key), st).
Proof.
  unfold first_missing_key, column_spec, Py.getitem. run.
  destruct (col !! "name"); [|by intros [= <-]].
  destruct (col !! "type"); [done|by intros [= <-]].
Qed.

Lemma column_spec_raised col st e st' :
  column_spec col st = (Raised e, st') →
  st' = st ∧ ∃ key, first_missing_key col = Some key ∧ e = Py.KeyError key.
Proof.
  unfold first_missing_key, column_spec, Py.getitem. run.
  destruct (col !! "name"); [|intros [= <- <-]; eauto].
  destruct (col !! "type"); [done|intros [= <- <-]; eauto].
Qed.

Lemma comprehension_missing good bad rest key : ∀ st,
  Forall well_keyed good →
  first_missing_key bad = Some key →
  comprehension column_spec (good ++ bad :: rest) st
    = (Raised (Py.KeyError key), st).
Proof.
  induction good as [|col good IH]; intros st Hgood Hbad; simpl; run.
  - by rewrite (column_spec_missing bad key st Hbad).
  - apply Forall_cons in Hgood as [Hc Hgood].
    destruct (column_spec_total col st Hc) as [d ->].
    by rewrite (IH st Hgood Hbad).
Qed.

Lemma comprehension_raised cols : ∀ st e st',
  comprehension column_spec cols st = (Raised e, st') →
  st' = st ∧
  ∃ (good : list (gmap string string)) bad rest key,
    cols = (good ++ bad :: rest)%list ∧ Forall well_keyed good ∧
    first_missing_key bad = Some key ∧ e = Py.KeyError key.
Proof.
  induction cols as [|col cols IH]; intros st e st'; simpl; run; [done|].
  destruct (column_spec col st) as [[d|e0] st1] eqn:Hd.
  - apply column_spec_returned in Hd as [-> (Hn & Hty & _)].
    destruct (comprehension column_spec cols st) as [[ds|e1] st2] eqn:Hds;
      [done|].
    apply IH in Hds as [-> (good & bad & rest & key & -> & Hgood & Hbad & ->)].
    intros [= <- <-]. split; [done|].
    exists (col :: good), bad, rest, key. repeat split; try done.
    constructor; [|done]. by split; eexists.
  - apply column_spec_raised in Hd as [-> (key & Hkey & ->)].
    intros [= <- <-]. split; [done|].
    exists [], col, cols, key. by repeat split.
Qed.

Lemma column_spec_same_keys c c' st :
  same_read_keys c c' → column_spec c st = column_spec c' st.
Proof.
  intros (Hn & Hty & Hnl). unfold column_spec, Py.getitem, Py.get. run.
  by rewrite Hn, Hty, Hnl.
Qed.

Lemma comprehension_same_keys cols : ∀ cols' st,
  Forall2 same_read_keys cols cols' →
  comprehension column_spec cols st = comprehension column_spec cols' st.
Proof.
  induction cols as [|c cols IH]; intros cols' st Hsame.
  - by apply Forall2_nil_inv_l in Hsame as ->.
  - apply Forall2_cons_inv_l in Hsame as (c' & cols'' & Hc & Hrest & ->).
    simpl. run. rewrite (column_spec_same_keys c c' st Hc).
    destruct (column_spec c' st) as [[d|e] st1] eqn:Hd; [|done].
    apply column_spec_returned in Hd as [-> _].
    by rewrite (IH cols'' st Hrest).
Qed.

End ColumnFailures.

(** X1.  [create_table] returns a table exactly when every column
    mapping has both a [name] and a [type] entry; otherwise it raises. *)
Theorem create_table_returns_iff_well_keyed
    (config : gmap string string) (name : string) (database schema : Input)
    (table_name : string) (columns : list (gmap string string))
    (comment : option string) (cluster_by : option (list string))
    (st : Stack) :
  (∃ t st', create_table config name database schema table_name columns
              comment cluster_by st = (Returned t, st'))
  ↔ Forall well_keyed columns.
Proof.
  split; [|apply create_table_total].
  intros (t & st' & Hrun).
  apply create_table_returned in Hrun as (Hcols & _ & _).
  revert Hcols. generalize (Table.columns t) as ds.
  induction columns as [|col cols IH]; intros ds Hcols; [constructor|].
  apply Forall2_cons_inv_l in Hcols as (d & ds' & (Hn & Hty & _) & Hrest & ->).
  constructor; [by split; eexists|]. by apply (IH ds').
Qed.

(** X2.  [create_table] raises exactly when some column mapping lacks
    [name] or [type], and then nothing has been declared: the exception
    is the KeyError of the first such mapping in list order, for [name]
    if that entry is missing and for [type] otherwise, and the registry
    and the outputs are what they were before the call. *)
Theorem create_table_raises_first_missing_key
    (config : gmap string string) (name : string) (database schema : Input)
    (table_name : string) (columns : list (gmap string string))
    (comment : option string) (cluster_by : option (list string))
    (st : Stack) (e : Py.Exn) (st' : Stack) :
  create_table config name database schema table_name columns comment
    cluster_by st = (Raised e, st')
  ↔ st' = st ∧
    ∃ (good : list (gmap string string)) bad rest key,
      columns = (good ++ bad :: rest)%list ∧ Forall well_keyed good ∧
      first_missing_key bad = Some key ∧ e = Py.KeyError key.
Proof.
  unfold create_table. run. split.
  - destruct (comprehension column_spec columns st) as [[ds|e0] st1] eqn:Hc;
      [done|].
    apply comprehension_raised in Hc as [-> Hdec]. by intros [= <- <-].
  - intros [-> (good & bad & rest & key & -> & Hgood & Hbad & ->)].
    by rewrite (comprehension_missing good bad rest key st Hgood Hbad).
Qed.

Lemma create_table_raises_first_missing_key_witness :
  create_table ∅ "example_table" (Plain "DB") (Plain "PUBLIC") "EVENTS"
    (scenario_columns ++ [ {[ "nullable" := "true" ]};
                           {[ "name" := "TS" ]} ])%list
    None None (mkStack [] {[ "kept" := Plain "x" ]})
  = (Raised (Py.KeyError "name"), mkStack [] {[ "kept" := Plain "x" ]}).
Proof.
  apply (create_table_raises_first_missing_key ∅ "example_table" (Plain "DB")
    (Plain "PUBLIC") "EVENTS" _ None None).
  split; [reflexivity|].
  exists scenario_columns, {[ "nullable" := "true" ]}, [ {[ "name" := "TS" ]} ],
    "name".
  split; [reflexivity|]. split; [exact scenario_columns_well_keyed|].
  split; reflexivity.
Defined.

(** X3.  [create_table] reads three keys of a column mapping and no
    other: two column lists whose mappings agree, position by position,
    on [name], [type] and [nullable] give the same outcome and the same
    registry, whatever else the mappings hold. *)
Theorem create_table_reads_three_keys
    (config : gmap string string) (name : string) (database schema : Input)
    (table_name : string) (columns columns' : list (gmap string string))
    (comment : option string) (cluster_by : option (list string))
    (st : Stack) :
  Forall2 same_read_keys columns columns' →
  create_table config name database schema table_name columns comment
    cluster_by st
  = create_table config name database schema table_name columns' comment
      cluster_by st.
Proof.
  intros Hsame. unfold create_table. run.
  by rewrite (comprehension_same_keys columns columns' st Hsame).
Qed.

Lemma create_table_reads_three_keys_witness :
  create_table ∅ "example_table" (Plain "DB") (Plain "PUBLIC") "EVENTS"
    [ {[ "name" := "ID"; "type" := "NUMBER(38,0)" ]} ] None None empty_stack
  = create_table ∅ "example_table" (Plain "DB") (Plain "PUBLIC") "EVENTS"
      [ {[ "name" := "ID"; "type" := "NUMBER(38,0)"; "default" := "0";
           "comment" := "key" ]} ] None None empty_stack.
Proof.
  apply create_table_reads_three_keys.
  constructor; [|constructor]. by repeat split.
Defined.

(** X4.  The descriptors of a declared table stand for the column
    mappings in the order given, none dropped, none added: there are as
    many descriptors as mappings, and their names and types are the
    mappings' names and types, position by position.  An empty column
    list is accepted and gives a table without columns. *)
Theorem create_table_keeps_column_order
    (config : gmap string string) (name : string) (database schema : Input)
    (table_name : string) (columns : list (gmap string string))
    (comment : option string) (cluster_by : option (list string))
    (st : Stack) (t : Table.t) (st' : Stack) :
  create_table config name database schema table_name columns comment
    cluster_by st = (Returned t, st') →
  length (Table.columns t) = length columns ∧
  (λ d, Some (TableColumnArgs.name d)) <$> Table.columns t
    = (λ col : gmap string string, col !! "name") <$> columns ∧
  (λ d, Some (TableColumnArgs.type d)) <$> Table.columns t
    = (λ col : gmap string string, col !! "type") <$> columns ∧
  (columns = [] → Table.columns t = []).
Proof.
  intros Hrun. apply create_table_returned in Hrun as (Hcols & _ & _).
  revert Hcols. generalize (Table.columns t) as ds.
  induction columns as [|col cols IH]; intros ds Hcols.
  - by apply Forall2_nil_inv_l in Hcols as ->.
  - apply Forall2_cons_inv_l in Hcols as (d & ds' & (Hn & Hty & _) & Hrest & ->).
    destruct (IH ds' Hrest) as (Hlen & Hnames & Htypes & _).
    rewrite !fmap_cons, Hnames, Htypes, Hn, Hty. simpl length.
    rewrite Hlen. by repeat split.
Qed.

Lemma create_table_keeps_column_order_witness :
  ∃ t st',
    create_table ∅ "example_table" (Plain "DB") (Plain "PUBLIC") "EVENTS"
      scenario_columns None None empty_stack = (Returned t, st') ∧
    length (Table.columns t) = 2%nat ∧
    (λ d, Some (TableColumnArgs.type d)) <$> Table.columns t
      = [Some "NUMBER(38,0)"; Some "VARCHAR(100)"].
Proof.
  eexists _, _. split; [vm_compute; reflexivity|].
  pose proof (create_table_keeps_column_order ∅ "example_table" (Plain "DB")
    (Plain "PUBLIC") "EVENTS" scenario_columns None None empty_stack _ _
    eq_refl) as (Hlen & _ & Htypes & _).
  split; [exact Hlen|exact Htypes].
Defined.

(** ** Grants: targets *)

(** X5.  Every grant declaration main.py produces sets exactly one of
    the three targets of the provider class: the account object for the
    database and warehouse grants, typed "DATABASE" and "WAREHOUSE" and
    named as passed, the schema for the schema grant, and the schema
    object for the table grant. *)
Theorem grants_set_exactly_one_target
    (name : string) (object_name database_name schema_name role : Input)
    (all_tables : Arg bool) (st : Stack) :
  (∃ g st', grant_database_usage name object_name role st = (Returned g, st') ∧
     target_count g = 1%nat ∧
     GrantPrivilegesToAccountRole.on_account_object g
       = Some (GrantPrivilegesToAccountRoleOnAccountObjectArgs.mk "DATABASE" object_name)) ∧
  (∃ g st', grant_warehouse_usage name object_name role st = (Returned g, st') ∧
     target_count g = 1%nat ∧
     GrantPrivilegesToAccountRole.on_account_object g
       = Some (GrantPrivilegesToAccountRoleOnAccountObjectArgs.mk "WAREHOUSE" object_name)) ∧
  (∃ g st', grant_schema_usage name database_name schema_name role st
              = (Returned g, st') ∧
     target_count g = 1%nat ∧
     is_Some (GrantPrivilegesToAccountRole.on_schema g)) ∧
  (∀ g st', grant_table_select name database_name schema_name role all_tables st
              = (Returned (Some g), st') →
     target_count g = 1%nat ∧
     is_Some (GrantPrivilegesToAccountRole.on_schema_object g)).
Proof.
  do 3 (split; [eexists _, _; by repeat split|]).
  intros g st'. unfold grant_table_select.
  destruct (Py.bind_default true all_tables); run; intros Hrun;
    simplify_eq; by split.
Qed.

Lemma grants_set_exactly_one_target_witness :
  ∃ g st',
    grant_table_select "sel" (Plain "DB") (Plain "PUBLIC") (Plain "ANALYST")
      Omitted empty_stack = (Returned (Some g), st') ∧
    target_count g = 1%nat.
Proof.
  eexists _, _. split; [vm_compute; reflexivity|].
  exact (proj1 (proj2 (proj2 (proj2 (grants_set_exactly_one_target "sel"
    (Plain "DB") (Plain "DB") (Plain "PUBLIC") (Plain "ANALYST") Omitted
    empty_stack))) _ _ eq_refl)).
Defined.

(** X6.  Called on the same role, database name and schema name, with
    [all_tables] left out or true, [grant_table_select] and
    [grant_schema_usage] name the same schema: the table grant covers
    the plural object type "TABLES" in a schema whose deferred name is
    the one the schema grant targets, so both resolve alike under every
    apply-phase valuation, and both grants go to the same role. *)
Theorem grant_table_select_targets_schema_of_usage
    (name name' : string) (database_name schema_name role : Input)
    (all_tables : Arg bool) (st st0 : Stack) (rho : Pulumi.Valuation) :
  Py.bind_default true all_tables = true →
  ∃ sel usage st' st0' target,
    grant_table_select name database_name schema_name role all_tables st
      = (Returned (Some sel), st') ∧
    grant_schema_usage name' database_name schema_name role st0
      = (Returned usage, st0') ∧
    GrantPrivilegesToAccountRole.on_schema_object sel
      = Some (GrantPrivilegesToAccountRoleOnSchemaObjectArgs.mk
                (GrantPrivilegesToAccountRoleOnSchemaObjectAllArgs.mk "TABLES" target)) ∧
    GrantPrivilegesToAccountRole.on_schema usage
      = Some (GrantPrivilegesToAccountRoleOnSchemaArgs.mk target) ∧
    GrantPrivilegesToAccountRole.account_role_name sel
      = GrantPrivilegesToAccountRole.account_role_name usage ∧
    Pulumi.resolve rho target =
      (d ← Pulumi.resolve rho database_name;
       s ← Pulumi.resolve rho schema_name;
       Some (d +:+ "." +:+ s)).
Proof.
  intros Hall. unfold grant_table_select. rewrite Hall.
  eexists _, _, _, _, _. do 5 (split; [reflexivity|]).
  rewrite resolve_concat3. simpl.
  by destruct (Pulumi.resolve rho database_name).
Qed.

Lemma grant_table_select_targets_schema_of_usage_witness :
  ∃ sel usage st' st0' target,
    grant_table_select "sel" (Attr Pulumi.KDatabase "example_db" "name")
      (Plain "PUBLIC") (Plain "ANALYST") Omitted empty_stack
      = (Returned (Some sel), st') ∧
    grant_schema_usage "usage" (Attr Pulumi.KDatabase "example_db" "name")
      (Plain "PUBLIC") (Plain "ANALYST") empty_stack
      = (Returned usage, st0') ∧
    GrantPrivilegesToAccountRole.on_schema usage
      = Some (GrantPrivilegesToAccountRoleOnSchemaArgs.mk target) ∧
    Pulumi.resolve (fun _ _ _ => Some "DB") target = Some "DB.PUBLIC".
Proof.
  destruct (grant_table_select_targets_schema_of_usage "sel" "usage"
    (Attr Pulumi.KDatabase "example_db" "name") (Plain "PUBLIC")
    (Plain "ANALYST") Omitted empty_stack empty_stack
    (fun _ _ _ => Some "DB") eq_refl)
    as (sel & usage & st' & st0' & target & Hsel & Huse & _ & Hon & _ & Hres).
  exists sel, usage, st', st0', target.
  split; [exact Hsel|]. split; [exact Huse|]. split; [exact Hon|].
  exact Hres.
Defined.

(** ** Comments and the environment *)

(** X7.  A comment that is not empty is declared as given:
    [create_role], [create_database], [create_schema] and, when it
    returns, [create_table] keep it verbatim, whatever the environment
    is. *)
Theorem nonempty_comment_is_kept
    (config : gmap string string) (c : string) (st : Stack) :
  c ≠ "" →
  (∀ name,
     ∃ r st', create_role config name (Some c) st = (Returned r, st') ∧
              Role.comment r = c) ∧
  (∀ name data_retention_time_in_days,
     ∃ d st', create_database config name (Some c)
                data_retention_time_in_days st = (Returned d, st') ∧
              Database.comment d = c) ∧
  (∀ name database schema_name data_retention_days is_managed,
     ∃ s st', create_schema config name database schema_name (Some c)
                data_retention_days is_managed st = (Returned s, st') ∧
              Schema.comment s = c) ∧
  (∀ name database schema table_name columns cluster_by t st',
     create_table config name database schema table_name columns (Some c)
       cluster_by st = (Returned t, st') →
     Table.comment t = c).
Proof.
  intros Hc. repeat split; intros;
    try (eexists _, _; split; [reflexivity|]; simpl; by apply or_else_nonempty).
  match goal with H : create_table _ _ _ _ _ _ _ _ _ = _ |- _ =>
    apply create_table_returned in H as (_ & -> & _) end.
  simpl. by apply or_else_nonempty.
Qed.

Lemma nonempty_comment_is_kept_witness :
  ∃ r st',
    create_role {[ "environment" := "prod" ]} "ANALYST" (Some "Read only")
      empty_stack = (Returned r, st') ∧
    Role.comment r = "Read only".
Proof.
  assert (Hne : "Read only" ≠ "") by discriminate.
  exact (proj1 (nonempty_comment_is_kept {[ "environment" := "prod" ]}
    "Read only" empty_stack Hne) "ANALYST").
Defined.

(** X8.  The environment label is never empty: it is the configured
    [environment] setting when that is a non-empty string, and "dev" both
    when the setting is absent and when it is the empty string. *)
Theorem environment_never_empty (config : gmap string string) :
  environment config ≠ "" ∧
  (∀ e, config !! "environment" = Some e → e ≠ "" → environment config = e) ∧
  (config !! "environment" = None → environment config = "dev") ∧
  (config !! "environment" = Some "" → environment config = "dev").
Proof.
  unfold environment. repeat split.
  - destruct (config !! "environment") as [e|]; [|done].
    destruct (decide (e = "")) as [->|Hne]; [done|].
    by rewrite or_else_nonempty.
  - intros e -> Hne. by apply or_else_nonempty.
  - by intros ->.
  - by intros ->.
Qed.

Lemma environment_never_empty_witness :
  environment {[ "environment" := "staging"; "region" := "eu" ]} = "staging" ∧
  environment {[ "environment" := "" ]} = "dev".
Proof.
  split.
  - apply (proj1 (proj2 (environment_never_empty
      {[ "environment" := "staging"; "region" := "eu" ]}))); [reflexivity|discriminate].
  - apply (proj2 (proj2 (proj2 (environment_never_empty
      {[ "environment" := "" ]})))), eq_refl.
Defined.

(** ** The registry *)

(** X9.  Every constructor that returns a handle has registered that
    very handle, once, under the identifier passed as its first argument
    and after all earlier declarations, and has left the stack outputs
    alone.  [create_table] does so when every column mapping has a name
    and a type, [grant_table_select] when [all_tables] is left out or
    true. *)
Theorem constructors_register_returned_handle
    (config : gmap string string) (name : string) (st : Stack) :
  (∀ login_name email default_role default_warehouse default_namespace
     must_change_password disabled,
     declares RUser name
       (create_user config name login_name email default_role
          default_warehouse default_namespace must_change_password disabled)
       st) ∧
  (∀ comment, declares RRole name (create_role config name comment) st) ∧
  (∀ role_name user_name,
     declares RRoleGrants name (grant_role_to_user name role_name user_name) st) ∧
  (∀ warehouse_size auto_suspend auto_resume initially_suspended
     max_cluster_count min_cluster_count,
     declares RWarehouse name
       (create_warehouse config name warehouse_size auto_suspend auto_resume
          initially_suspended max_cluster_count min_cluster_count) st) ∧
  (∀ comment data_retention_time_in_days,
     declares RDatabase name
       (create_database config name comment data_retention_time_in_days) st) ∧
  (∀ database schema_name comment data_retention_days is_managed,
     declares RSchema name
       (create_schema config name database schema_name comment
          data_retention_days is_managed) st) ∧
  (∀ database schema table_name columns comment cluster_by,
     Forall well_keyed columns →
     declares RTable name
       (create_table config name database schema table_name columns comment
          cluster_by) st) ∧
  (∀ database_name role,
     declares RGrantPrivilegesToAccountRole name
       (grant_database_usage name database_name role) st) ∧
  (∀ database_name schema_name role,
     declares RGrantPrivilegesToAccountRole name
       (grant_schema_usage name database_name schema_name role) st) ∧
  (∀ warehouse_name role,
     declares RGrantPrivilegesToAccountRole name
       (grant_warehouse_usage name warehouse_name role) st) ∧
  (∀ database_name schema_name role all_tables,
     Py.bind_default true all_tables = true →
     ∃ g, grant_table_select name database_name schema_name role all_tables st
            = (Returned (Some g),
               mkStack (registry st ++ [RGrantPrivilegesToAccountRole g])
                 (outputs st)) ∧
          GrantPrivilegesToAccountRole.resource_name g = name).
Proof.
  unfold declares.
  repeat split; intros; try (eexists; split; reflexivity).
  - match goal with H : Forall well_keyed _ |- _ =>
      destruct (create_table_total config name database schema table_name
                  columns comment cluster_by st H) as (t & st' & Hrun) end.
    exists t. pose proof Hrun as Hret.
    apply create_table_returned in Hret as (_ & Ht & ->).
    split; [done|]. by rewrite Ht.
  - unfold grant_table_select.
    match goal with H : Py.bind_default _ _ = true |- _ => rewrite H end.
    eexists; split; reflexivity.
Qed.

Lemma constructors_register_returned_handle_witness :
  declares RTable "example_table"
    (create_table ∅ "example_table" (Plain "DB") (Plain "PUBLIC") "EVENTS"
       scenario_columns None None)
    (mkStack [RRole (Role.mk "example_role" "ANALYST" "c")] ∅).
Proof.
  exact (proj1 (proj2 (proj2 (proj2 (proj2 (proj2 (proj2
    (constructors_register_returned_handle ∅ "example_table"
       (mkStack [RRole (Role.mk "example_role" "ANALYST" "c")] ∅))))))))
    (Plain "DB") (Plain "PUBLIC") "EVENTS" scenario_columns None None
    scenario_columns_well_keyed).
Defined.

(** ** Defaults *)

(** X11.  Arguments left out take the defaults of the [def] lines: a
    user declared with only identifier, login name and email must change
    the password, is enabled and has no default role, warehouse or
    namespace; a database declared without a retention time keeps time
    travel for 1 day; a schema declared without the two trailing
    arguments is unmanaged and carries no retention override; and
    [grant_table_select] without [all_tables] is the call with
    [all_tables] true. *)
Theorem omitted_arguments_take_defaults
    (config : gmap string string) (name : string) (st : Stack) :
  (∀ login_name email,
     ∃ u st', create_user config name login_name email None None None
                Omitted Omitted st = (Returned u, st') ∧
              User.must_change_password u = true ∧
              User.disabled u = false ∧
              User.default_role u = None ∧
              User.default_warehouse u = None ∧
              User.default_namespace u = None ∧
              User.email u = email) ∧
  (∀ comment,
     ∃ d st', create_database config name comment Omitted st
                = (Returned d, st') ∧
              Database.data_retention_time_in_days d = 1) ∧
  (∀ database schema_name comment,
     ∃ s st', create_schema config name database schema_name comment None
                Omitted st = (Returned s, st') ∧
              Schema.is_managed s = false ∧
              Schema.data_retention_days s = None ∧
              Schema.database s = database ∧
              Schema.name s = schema_name) ∧
  (∀ database_name schema_name role,
     grant_table_select name database_name schema_name role Omitted st
       = grant_table_select name database_name schema_name role
           (Passed true) st).
Proof.
  repeat split; intros; eexists _, _; by repeat split.
Qed.
